(** * remove_bg: turning near-black pixels transparent

    A shallow embedding of [src/frontend/remove_bg.py] and the properties of
    its single function [remove_black_background].

    The function loads an image, normalises it to RGBA, turns it into a
    three-dimensional [uint8] array, computes a mask of the pixels whose red,
    green and blue samples are all below a threshold, zeroes the alpha sample
    at the masked positions, saves the array as an image and prints a
    confirmation. *)

From Stdlib Require Import NArith Ascii.
From stdpp Require Import base option list strings gmap.

Open Scope N_scope.

(** ** Exceptions and results *)

(** The exceptions a run can end with.  [DecodeFailure] and [WriteFailure]
    are raised by the imaging library (by [Image.open] and [Image.save]);
    [IndexError] and [TypeError] are the ones numpy indexing and
    [Image.fromarray] raise on arrays of the wrong shape. *)
Inductive exn : Type :=
| DecodeFailure (msg : string)
| WriteFailure (msg : string)
| IndexError
| TypeError.

Inductive result (A : Type) : Type :=
| Ok (a : A)
| Raise (e : exn).
Arguments Ok {A} a.
Arguments Raise {A} e.

#[global] Instance result_ret : MRet result := λ A a, Ok a.
#[global] Instance result_bind : MBind result := λ A B f m,
  match m with
  | Ok a => f a
  | Raise e => Raise e
  end.

(** ** Arrays *)

Module Numpy.

(** A [uint8] array of shape [(H, W, channels)]: [items] holds the [H] rows,
    a row holds [W] pixels, a pixel holds its [channels] samples.  The first
    two dimensions are the lengths of the lists; the last one is kept
    explicitly because indexing is checked against it. *)
Record ndarray : Type := NdArray {
  channels : nat;
  items : list (list (list N))
}.

(** [data[:, :, c]]: the two-dimensional array of the samples of channel
    [c]; an index outside the last dimension raises [IndexError]. *)
Definition get_channel (data : ndarray) (c : nat) : result (list (list N)) :=
  if decide (c < channels data)%nat
  then Ok (map (map (λ px : list N, px !!! c)) (items data))
  else Raise IndexError.

(** [a < t] for a scalar [t], element by element. *)
Definition less (a : list (list N)) (t : N) : list (list bool) :=
  map (map (λ v, v <? t)) a.

(** [a & b] on boolean arrays, element by element. *)
Definition band (a b : list (list bool)) : list (list bool) :=
  zip_with (zip_with andb) a b.

(** The first two dimensions of an array, as the list of its row lengths. *)
Definition shape2 {A} (a : list (list A)) : list nat := map length a.

(** [data[mask, c] = v]: sample [c] of every pixel selected by the boolean
    array [mask] becomes [v].  A mask whose shape differs from the first two
    dimensions of [data], or a [c] outside the last dimension, raises
    [IndexError]. *)
Definition set_masked (data : ndarray) (mask : list (list bool)) (c : nat) (v : N)
  : result ndarray :=
  if decide (c < channels data ∧ shape2 mask = shape2 (items data))%nat
  then Ok (NdArray (channels data)
             (zip_with (zip_with (λ (px : list N) (m : bool),
                                    if m then <[c := v]> px else px))
                       (items data) mask))
  else Raise IndexError.

End Numpy.
Import Numpy.

(** ** Images *)

(** An image as the imaging library holds it after decoding: a grid of
    pixels in mode RGB (three samples, no alpha channel) or RGBA.  The
    samples are [uint8] values; no operation of the function does arithmetic
    on them, so they are kept as numbers without a bound. *)
Inductive Image : Type :=
| RGB (rows : list (list (N * N * N)))
| RGBA (rows : list (list (N * N * N * N))).

(** Modelled from the spec: [Image.convert("RGBA")] is code of the imaging
    library, not of the repository.  Section 3 of the specification says the
    loaded image is normalised to four channels and that a three-channel
    image gains a fully opaque alpha channel; an RGBA image is kept as it
    is. *)
Definition convert_RGBA (im : Image) : Image :=
  match im with
  | RGB rows => RGBA (map (map (λ '(r, g, b), (r, g, b, 255))) rows)
  | RGBA rows => RGBA rows
  end.

(** [np.array(img)]: the samples of the image as an array of shape
    [(H, W, 3)] or [(H, W, 4)]. *)
Definition np_array (im : Image) : ndarray :=
  match im with
  | RGB rows => NdArray 3 (map (map (λ '(r, g, b), [r; g; b])) rows)
  | RGBA rows => NdArray 4 (map (map (λ '(r, g, b, a), [r; g; b; a])) rows)
  end.

Definition pixel3 (px : list N) : option (N * N * N) :=
  match px with
  | [r; g; b] => Some (r, g, b)
  | _ => None
  end.

Definition pixel4 (px : list N) : option (N * N * N * N) :=
  match px with
  | [r; g; b; a] => Some (r, g, b, a)
  | _ => None
  end.

(** [Image.fromarray(data)]: the mode is read off the last dimension of the
    array (3 gives RGB, 4 gives RGBA); other shapes are refused. *)
Definition Image_fromarray (data : ndarray) : result Image :=
  match channels data with
  | 3%nat => match mapM (mapM pixel3) (items data) with
             | Some rows => Ok (RGB rows)
             | None => Raise TypeError
             end
  | 4%nat => match mapM (mapM pixel4) (items data) with
             | Some rows => Ok (RGBA rows)
             | None => Raise TypeError
             end
  | _ => Raise TypeError
  end.

(** The entry in column [x] of row [y] of a grid. *)
Definition pixel_at {A} (rows : list (list A)) (x y : nat) : option A :=
  rows !! y ≫= (.!! x).

(** [img.getpixel((x, y))]: the samples of the pixel in column [x] of row
    [y]. *)
Definition getpixel (im : Image) (x y : nat) : option (list N) :=
  match im with
  | RGB rows => '(r, g, b) ← pixel_at rows x y; Some [r; g; b]
  | RGBA rows => '(r, g, b, a) ← pixel_at rows x y; Some [r; g; b; a]
  end.

Definition red_at (im : Image) (x y : nat) : option N := getpixel im x y ≫= (.!! 0%nat).
Definition green_at (im : Image) (x y : nat) : option N := getpixel im x y ≫= (.!! 1%nat).
Definition blue_at (im : Image) (x y : nat) : option N := getpixel im x y ≫= (.!! 2%nat).
(** [None] outside the image and in an image without alpha channel. *)
Definition alpha_at (im : Image) (x y : nat) : option N := getpixel im x y ≫= (.!! 3%nat).

(** The length of every row, and [img.size]: the width (of the first row;
    the rows of a decoded image all have the same length) and the height. *)
Definition row_lengths (im : Image) : list nat :=
  match im with
  | RGB rows => map length rows
  | RGBA rows => map length rows
  end.

Definition size (im : Image) : nat * nat :=
  (hd 0%nat (row_lengths im), length (row_lengths im)).

(** ** The pixel transformation (lines 5 to 18) *)

(** Line 9: the threshold for black. *)
Definition threshold : N := 30.

(** Line 12: the mask of the black pixels, those whose red, green and blue
    samples are all below the threshold. *)
Definition black_mask (data : ndarray) (threshold : N) : result (list (list bool)) :=
  r ← get_channel data 0;
  g ← get_channel data 1;
  b ← get_channel data 2;
  Ok (band (band (less r threshold) (less g threshold)) (less b threshold)).

(** Lines 9 to 15 on the array. *)
Definition mask_alpha (data : ndarray) : result ndarray :=
  mask ← black_mask data threshold;
  set_masked data mask 3 0.

(** What [remove_black_background] does to the decoded image before it
    saves it: lines 5 (after [Image.open]) to 18. *)
Definition process (src : Image) : result Image :=
  let img := convert_RGBA src in
  let data := np_array img in
  data ← mask_alpha data;
  Image_fromarray data.

(** ** The environment and the effects of a run *)

(** Container formats of the files the library writes. *)
Inductive Format : Type := PNG | JPEG | PPM.

(** Whether a container format stores an alpha sample for every pixel. *)
Definition supports_alpha (fmt : Format) : bool :=
  match fmt with
  | PNG => true
  | JPEG | PPM => false
  end.

(** What the two input/output calls of the function answer.  [open_file]
    is [Image.open(path)] together with the loading of the pixels that the
    conversion on the same line triggers: the decoded image, or the exception
    raised when the file is missing or cannot be decoded.  [save_file] is
    [img.save(path)], called as the source calls it, with the path only: the
    container format the library wrote, or the exception raised. *)
Record Env : Type := {
  open_file : string → result Image;
  save_file : Image → string → result Format
}.

(** The effects of a run on the world outside, in the order they happen. *)
Inductive Event : Type :=
| Saved (path : string) (fmt : Format) (img : Image)
| SaveFailed (path : string)
| Printed (text : string).

(** Computations of the program: they read the environment, append to the
    log of effects and return a value or raise. *)
Definition M (A : Type) : Type := Env → list Event → result A * list Event.

#[global] Instance M_ret : MRet M := λ A a env log, (Ok a, log).
#[global] Instance M_bind : MBind M := λ A B f m env log,
  match m env log with
  | (Ok a, log') => f a env log'
  | (Raise e, log') => (Raise e, log')
  end.

(** A computation without effects. *)
Definition lift {A} (r : result A) : M A := λ env log, (r, log).

Definition Image_open (path : string) : M Image :=
  λ env log, (open_file env path, log).

Definition Image_save (img : Image) (path : string) : M unit :=
  λ env log,
    match save_file env img path with
    | Ok fmt => (Ok (), log ++ [Saved path fmt img])
    | Raise e => (Raise e, log ++ [SaveFailed path])
    end.

Definition LF : ascii := "010"%char.

(** [print(s)]: the text and a line feed go to the standard output. *)
Definition print (s : string) : M unit :=
  λ env log, (Ok (), log ++ [Printed (s +:+ String LF "")]).

(** ** The function *)

Definition remove_black_background (input_path output_path : string) : M unit :=
  img ← Image_open input_path;
  let img := convert_RGBA img in
  let data := np_array img in
  mask ← lift (black_mask data threshold);
  data ← lift (set_masked data mask 3 0);
  new_img ← lift (Image_fromarray data);
  Image_save new_img output_path;;
  print ("Processed image saved to " +:+ output_path).

(** The text the function prints for an output path. *)
Definition confirmation (output_path : string) : string :=
  ("Processed image saved to " +:+ output_path) +:+ String LF "".

(** ** Reading the log *)

(** Everything written to the standard output. *)
Fixpoint stdout (log : list Event) : string :=
  match log with
  | [] => ""
  | Printed text :: log => text +:+ stdout log
  | _ :: log => stdout log
  end.

(** The image of a [Saved] event for the path [o]. *)
Definition saved_at (o : string) (ev : Event) : option Image :=
  match ev with
  | Saved path _ img => if decide (path = o) then Some img else None
  | _ => None
  end.

(** The image a run of the function from the empty log has written at the
    output path, if the run returned. *)
Definition written_image (env : Env) (input_path output_path : string) : option Image :=
  match remove_black_background input_path output_path env [] with
  | (Ok _, log) => head (omap (saved_at output_path) log)
  | (Raise _, _) => None
  end.

(** The lines of a text; a line ends at its line feed. *)
Fixpoint lines (s : string) : list string :=
  match s with
  | EmptyString => []
  | String c s =>
      if Ascii.eqb c LF then "" :: lines s
      else match lines s with
           | [] => [String c ""]
           | l :: ls => String c l :: ls
           end
  end.

Fixpoint has_LF (s : string) : bool :=
  match s with
  | EmptyString => false
  | String c s => Ascii.eqb c LF || has_LF s
  end.

(** [sub in s]. *)
Definition contains (s sub : string) : Prop :=
  ∃ before after, s = before +:+ sub +:+ after.

(** ** A reference environment

    The documented behaviour of the imaging library (Pillow) on the two calls
    of the function, for a file system given as a finite map from paths to the
    images the files decode to.  [Image.save] without a [format] argument
    looks the lower-cased extension of the path up in the library's registry
    of extensions and hands the image to the writer of that format. *)

Module Pillow.

(** The suffix of [s] after the last occurrence of [c], if [c] occurs. *)
Fixpoint after_last (c : ascii) (s : string) : option string :=
  match s with
  | EmptyString => None
  | String d s =>
      match after_last c s with
      | Some t => Some t
      | None => if Ascii.eqb d c then Some s else None
      end
  end.

Fixpoint skip_dots (s : string) : string :=
  match s with
  | String "." s' => skip_dots s'
  | _ => s
  end.

(** [os.path.splitext(path)[1]]: the extension starts at the last dot of the
    last component of the path; the leading dots of that component do not
    count. *)
Definition splitext_ext (path : string) : string :=
  let name := default path (after_last "/" path) in
  match after_last "." (skip_dots name) with
  | Some e => String "." e
  | None => ""
  end.

Definition lower_ascii (c : ascii) : ascii :=
  let n := N_of_ascii c in
  if (65 <=? n) && (n <=? 90) then ascii_of_N (n + 32) else c.

(** [s.lower()] on ASCII text. *)
Fixpoint lower (s : string) : string :=
  match s with
  | EmptyString => ""
  | String c s => String (lower_ascii c) (lower s)
  end.

(** Four entries of the registry of extensions. *)
Definition EXTENSION : gmap string Format :=
  list_to_map [(".png", PNG); (".jpg", JPEG); (".jpeg", JPEG); (".ppm", PPM)].

(** The writers: PNG stores every mode; JPEG refuses an image with alpha;
    PPM stores the colour samples of an RGBA image and leaves alpha out. *)
Definition save_handler (fmt : Format) (img : Image) : result unit :=
  match fmt, img with
  | JPEG, RGBA _ => Raise (WriteFailure "cannot write mode RGBA as JPEG")
  | _, _ => Ok ()
  end.

Definition save (img : Image) (path : string) : result Format :=
  match EXTENSION !! lower (splitext_ext path) with
  | None => Raise (WriteFailure "unknown file extension")
  | Some fmt => save_handler fmt img;; Ok fmt
  end.

Definition open (files : gmap string Image) (path : string) : result Image :=
  match files !! path with
  | Some img => Ok img
  | None => Raise (DecodeFailure "No such file or directory")
  end.

Definition env (files : gmap string Image) : Env :=
  {| open_file := open files; save_file := save |}.

End Pillow.

(** The files of the examples: the 2 by 2 image of scenario A, without
    alpha channel, an image with alpha, and a second image without. *)
Definition logo : Image :=
  RGB [[(0, 0, 0); (10, 5, 2)]; [(40, 40, 40); (255, 255, 255)]].

Definition glass : Image :=
  RGBA [[(0, 0, 0, 200); (30, 30, 30, 128)]; [(29, 29, 29, 7); (30, 0, 0, 9)]].

Definition dark : Image := RGB [[(0, 0, 0); (77, 77, 77)]].

Definition files : gmap string Image :=
  {[ "logo.png" := logo; "glass.png" := glass; "dark.png" := dark ]}.

(** What the function makes of [logo] and of [glass]. *)
Definition logo_out : Image :=
  RGBA [[(0, 0, 0, 0); (10, 5, 2, 0)]; [(40, 40, 40, 255); (255, 255, 255, 255)]].

Definition glass_out : Image :=
  RGBA [[(0, 0, 0, 0); (30, 30, 30, 128)]; [(29, 29, 29, 0); (30, 0, 0, 9)]].

(** A path whose file name has a line feed in it. *)
Definition two_line_path : string := "a" +:+ String LF "b.png".

(** ** The transformation, pixel by pixel *)

(** The samples of an image after normalisation to RGBA. *)
Definition rgba_rows (im : Image) : list (list (N * N * N * N)) :=
  match convert_RGBA im with
  | RGB _ => []
  | RGBA rows => rows
  end.

(** The predicate of line 12 on one pixel, and the effect of line 15 on it. *)
Definition is_black (px : N * N * N * N) : bool :=
  let '(r, g, b, _) := px in (r <? threshold) && (g <? threshold) && (b <? threshold).

Definition clear_black (px : N * N * N * N) : N * N * N * N :=
  let '(r, g, b, a) := px in if is_black px then (r, g, b, 0) else px.

Definition samples4 (px : N * N * N * N) : list N :=
  let '(r, g, b, a) := px in [r; g; b; a].

(** ** The entry point (lines 22 to 25) *)

Definition logo_path : string :=
  "/home/ubuntu/edgeai-wallet-guide/client/public/images/logo.png".

Definition logo_transparent_path : string :=
  "/home/ubuntu/edgeai-wallet-guide/client/public/images/logo_transparent.png".

(** The body of the module, executed with [name] as its [__name__]: the
    [def] has no effect of its own, and the call of lines 23 to 25 is made
    when the module is run as a program. *)
Definition module_body (name : string) : M unit :=
  if decide (name = "__main__")
  then remove_black_background logo_path logo_transparent_path
  else mret ().

(** An image without a pixel below the threshold in all three colours, and
    a second file system: that image, an image the function has written, and
    the file the entry point reads. *)
Definition bright : Image :=
  RGB [[(255, 255, 255); (30, 30, 30)]; [(30, 0, 0); (0, 200, 7)]].

Definition more_files : gmap string Image :=
  {[ "bright.png" := bright; "logo_transparent.png" := logo_out; logo_path := logo ]}.

(** * Properties *)

(** ** The scenarios of the specification *)

Example scenario_A : process logo = Ok logo_out.
Proof. reflexivity. Qed.

Example scenario_B :
  process (RGBA (replicate 4 (replicate 4 (255, 255, 255, 255))))
  = Ok (RGBA (replicate 4 (replicate 4 (255, 255, 255, 255)))).
Proof. reflexivity. Qed.

Example scenario_C :
  process (RGBA (replicate 4 (replicate 4 (0, 0, 0, 255))))
  = Ok (RGBA (replicate 4 (replicate 4 (0, 0, 0, 0)))).
Proof. reflexivity. Qed.

Example process_glass : process glass = Ok glass_out.
Proof. reflexivity. Qed.

(** ** The transformation is [clear_black] on every pixel *)

Section Pointwise.

Implicit Types (row : list (N * N * N * N)) (rows : list (list (N * N * N * N))).

Lemma np_array_RGBA rows :
  np_array (RGBA rows) = NdArray 4 (map (map samples4) rows).
Proof. reflexivity. Qed.

Lemma get_channel_ok (data : ndarray) (c : nat) :
  (c < channels data)%nat →
  get_channel data c = Ok (map (map (λ px : list N, px !!! c)) (items data)).
Proof. intros Hc. unfold get_channel. by rewrite decide_True. Qed.

(** The mask of line 12 holds [is_black] of every pixel. *)
Lemma black_mask_RGBA rows :
  black_mask (np_array (RGBA rows)) threshold = Ok (map (map is_black) rows).
Proof.
  rewrite np_array_RGBA. unfold black_mask.
  rewrite !get_channel_ok by (cbn; lia). cbn [mbind result_bind items].
  f_equal. unfold band, less.
  induction rows as [|row rows IH]; [done|].
  cbn [map zip_with]. rewrite IH. f_equal.
  clear. induction row as [|[[[r g] b] a] row IH]; [done|].
  cbn [map zip_with]. by rewrite IH.
Qed.

(** Lines 9 to 15 apply [clear_black] to every pixel. *)
Lemma mask_alpha_RGBA rows :
  mask_alpha (np_array (RGBA rows)) = Ok (np_array (RGBA (map (map clear_black) rows))).
Proof.
  unfold mask_alpha. rewrite black_mask_RGBA, !np_array_RGBA. cbn.
  unfold set_masked. cbn [channels items].
  rewrite decide_True.
  2:{ split; [lia|]. unfold shape2. rewrite !map_map.
      apply map_ext. intros row. by rewrite !length_map. }
  f_equal. f_equal.
  induction rows as [|row rows IH]; [done|].
  cbn [map zip_with]. rewrite IH. f_equal.
  clear. induction row as [|[[[r g] b] a] row IH]; [done|].
  cbn [map zip_with]. rewrite IH. f_equal.
  unfold clear_black. by destruct (is_black (r, g, b, a)).
Qed.

Lemma Image_fromarray_RGBA rows :
  Image_fromarray (np_array (RGBA rows)) = Ok (RGBA rows).
Proof.
  rewrite np_array_RGBA. unfold Image_fromarray. cbn [channels items].
  assert (mapM (mapM pixel4) (map (map samples4) rows) = Some rows) as ->; [|done].
  apply mapM_fmap_Some. intros row. apply mapM_fmap_Some.
  by intros [[[r g] b] a].
Qed.

Lemma convert_RGBA_rows (src : Image) : convert_RGBA src = RGBA (rgba_rows src).
Proof. by destruct src. Qed.

(** [process] never raises, and it is [clear_black] on every pixel of the
    normalised image. *)
Lemma process_pointwise (src : Image) :
  process src = Ok (RGBA (map (map clear_black) (rgba_rows src))).
Proof.
  unfold process. rewrite convert_RGBA_rows, mask_alpha_RGBA. cbn.
  apply Image_fromarray_RGBA.
Qed.

End Pointwise.

Example run_png :
  remove_black_background "logo.png" "out/logo_transparent.png" (Pillow.env files) []
  = (Ok (),
     [Saved "out/logo_transparent.png" PNG logo_out;
      Printed (confirmation "out/logo_transparent.png")]).
Proof. vm_compute. reflexivity. Qed.

Example run_jpg :
  remove_black_background "logo.png" "logo.JPG" (Pillow.env files) []
  = (Raise (WriteFailure "cannot write mode RGBA as JPEG"), [SaveFailed "logo.JPG"]).
Proof. vm_compute. reflexivity. Qed.

Example run_missing :
  remove_black_background "nothing.png" "out.png" (Pillow.env files) []
  = (Raise (DecodeFailure "No such file or directory"), []).
Proof. vm_compute. reflexivity. Qed.

(** ** The run as a whole *)

(** The run, step by step: the image handed to [Image.save] is
    [process] of the decoded image. *)
Lemma remove_black_background_run (env : Env) (i o : string) (log : list Event) :
  remove_black_background i o env log =
  match open_file env i with
  | Raise e => (Raise e, log)
  | Ok src =>
      match process src with
      | Raise e => (Raise e, log)
      | Ok new_img =>
          match save_file env new_img o with
          | Raise e => (Raise e, log ++ [SaveFailed o])
          | Ok fmt => (Ok (), log ++ [Saved o fmt new_img; Printed (confirmation o)])
          end
      end
  end.
Proof.
  unfold remove_black_background, process, mask_alpha, Image_open, Image_save,
    print, lift, confirmation, mbind, M_bind, result_bind.
  destruct (open_file env i) as [src|e]; [|done].
  destruct (black_mask _ _) as [mask|e]; [|done].
  destruct (set_masked _ _ _ _) as [data|e]; [|done].
  destruct (Image_fromarray data) as [new_img|e]; [|done].
  destruct (save_file env new_img o) as [fmt|e]; [|done].
  by rewrite <- app_assoc.
Qed.

(** A run that returns has decoded, transformed, saved and printed, in this
    order. *)
Lemma remove_black_background_success (env : Env) (i o : string) (log log' : list Event) :
  remove_black_background i o env log = (Ok (), log') →
  ∃ src new_img fmt,
    open_file env i = Ok src ∧ process src = Ok new_img
    ∧ save_file env new_img o = Ok fmt
    ∧ log' = log ++ [Saved o fmt new_img; Printed (confirmation o)].
Proof.
  rewrite remove_black_background_run.
  destruct (open_file env i) as [src|e] eqn:Hopen; [|done].
  destruct (process src) as [new_img|e] eqn:Hprocess; [|done].
  destruct (save_file env new_img o) as [fmt|e] eqn:Hsave; [|done].
  intros [= <-]. by exists src, new_img, fmt.
Qed.

(** The image written is [clear_black] on every pixel of the normalised
    input. *)
Lemma written_image_pointwise (env : Env) (i o : string) (src out : Image) :
  open_file env i = Ok src → written_image env i o = Some out →
  out = RGBA (map (map clear_black) (rgba_rows src)).
Proof.
  intros Hopen. unfold written_image.
  rewrite remove_black_background_run, Hopen, process_pointwise.
  destruct (save_file env _ o) as [fmt|e]; [|done]. cbn.
  rewrite decide_True by done. cbn. congruence.
Qed.

(** Whenever decoding and saving succeed, an image is written. *)
Lemma written_image_total (env : Env) (i o : string) (src : Image) (fmt : Format) :
  open_file env i = Ok src →
  save_file env (RGBA (map (map clear_black) (rgba_rows src))) o = Ok fmt →
  written_image env i o = Some (RGBA (map (map clear_black) (rgba_rows src))).
Proof.
  intros Hopen Hsave. unfold written_image.
  rewrite remove_black_background_run, Hopen, process_pointwise, Hsave. cbn.
  by rewrite decide_True.
Qed.

(** ** Reading pixels of the result *)

Lemma pixel_at_map {A B} (f : A → B) (rows : list (list A)) (x y : nat) :
  pixel_at (map (map f) rows) x y = f <$> pixel_at rows x y.
Proof.
  unfold pixel_at.
  change (map (map f) rows) with (map f <$> rows). rewrite list_lookup_fmap.
  destruct (rows !! y) as [row|]; [|done]. cbn.
  change (map f row) with (f <$> row). apply list_lookup_fmap.
Qed.

Lemma clear_black_eq (r g b a : N) :
  clear_black (r, g, b, a) = (r, g, b, if is_black (r, g, b, a) then 0 else a).
Proof. unfold clear_black. by destruct (is_black (r, g, b, a)). Qed.

Lemma clear_black_idemp (px : N * N * N * N) :
  clear_black (clear_black px) = clear_black px.
Proof.
  destruct px as [[[r g] b] a]. rewrite !clear_black_eq. unfold is_black.
  by destruct ((r <? threshold) && (g <? threshold) && (b <? threshold)).
Qed.

Lemma is_black_below (r g b a : N) :
  r < threshold → g < threshold → b < threshold → is_black (r, g, b, a) = true.
Proof.
  intros Hr%N.ltb_lt Hg%N.ltb_lt Hb%N.ltb_lt. unfold is_black.
  by rewrite Hr, Hg, Hb.
Qed.

Lemma is_black_not_below (r g b a : N) :
  ¬ (r < threshold ∧ g < threshold ∧ b < threshold) → is_black (r, g, b, a) = false.
Proof.
  intros Hn. unfold is_black.
  destruct (r <? threshold) eqn:Hr, (g <? threshold) eqn:Hg,
    (b <? threshold) eqn:Hb; try done.
  apply N.ltb_lt in Hr, Hg, Hb. tauto.
Qed.

#[local] Arguments clear_black : simpl never.
#[local] Arguments is_black : simpl never.

(** Case analysis on the pixel at [(x, y)] of the source [src] of a written
    image [out]: [out] is replaced by its value, the accessors are unfolded
    and the pixel, if there is one, is split into its samples. *)
Ltac pixel_cases src out x y Hopen Hout :=
  pose proof (written_image_pointwise _ _ _ _ _ Hopen Hout); subst out;
  clear Hopen Hout;
  unfold red_at, green_at, blue_at, alpha_at, getpixel, rgba_rows, convert_RGBA in *;
  destruct src as [rows|rows];
  rewrite ?pixel_at_map in *;
  [ destruct (pixel_at rows x y) as [[[?r ?g] ?b]|]
  | destruct (pixel_at rows x y) as [[[[?r ?g] ?b] ?a]|] ];
  cbn in *; rewrite ?clear_black_eq in *; cbn in *; simplify_eq.

(** ** Claims about the pixels

    In each of them [src] is the image the input path decodes to and [out]
    the image the run has written at the output path. *)

(** C1: for every input image and every position whose original red, green
    and blue samples are all strictly below 30, the alpha sample at that
    position of the image written by [remove_black_background] is 0. *)
Theorem black_pixels_become_transparent
    (env : Env) (i o : string) (src out : Image) (x y : nat) (r g b : N) :
  open_file env i = Ok src → written_image env i o = Some out →
  red_at src x y = Some r → green_at src x y = Some g → blue_at src x y = Some b →
  r < 30 → g < 30 → b < 30 →
  alpha_at out x y = Some 0.
Proof.
  intros Hopen Hout Hr Hg Hb Lr Lg Lb.
  pixel_cases src out x y Hopen Hout; by rewrite is_black_below.
Qed.

Lemma black_pixels_become_transparent_witness : alpha_at logo_out 1 0 = Some 0.
Proof.
  apply (black_pixels_become_transparent
           (Pillow.env files) "logo.png" "out.png" logo logo_out 1 0 10 5 2);
    vm_compute; reflexivity.
Defined.

(** C2: at every position where the red, green and blue samples are not all
    below 30, the output alpha is the input alpha, and it is 255 when the
    input image has no alpha channel. *)
Theorem other_pixels_keep_alpha
    (env : Env) (i o : string) (src out : Image) (x y : nat) (r g b : N) :
  open_file env i = Ok src → written_image env i o = Some out →
  red_at src x y = Some r → green_at src x y = Some g → blue_at src x y = Some b →
  ¬ (r < 30 ∧ g < 30 ∧ b < 30) →
  alpha_at out x y = match src with
                     | RGB _ => Some 255
                     | RGBA _ => alpha_at src x y
                     end.
Proof.
  intros Hopen Hout Hr Hg Hb Hn.
  pixel_cases src out x y Hopen Hout; by rewrite is_black_not_below.
Qed.

Lemma other_pixels_keep_alpha_witness :
  alpha_at logo_out 0 1 = Some 255 ∧ alpha_at glass_out 1 1 = alpha_at glass 1 1.
Proof.
  split.
  - apply (other_pixels_keep_alpha
             (Pillow.env files) "logo.png" "out.png" logo logo_out 0 1 40 40 40);
      try (vm_compute; reflexivity).
    intros (Hr & _). vm_compute in Hr. discriminate.
  - apply (other_pixels_keep_alpha
             (Pillow.env files) "glass.png" "out.png" glass glass_out 1 1 30 0 0);
      try (vm_compute; reflexivity).
    intros (Hr & _). vm_compute in Hr. discriminate.
Defined.

(** C3: the red, green and blue samples of every pixel are the input's, and
    the output has the width and the height of the input. *)
Theorem colours_and_size_unchanged (env : Env) (i o : string) (src out : Image) :
  open_file env i = Ok src → written_image env i o = Some out →
  (∀ x y, red_at out x y = red_at src x y
        ∧ green_at out x y = green_at src x y
        ∧ blue_at out x y = blue_at src x y)
  ∧ row_lengths out = row_lengths src
  ∧ size out = size src.
Proof.
  intros Hopen Hout.
  assert (row_lengths out = row_lengths src) as Hlen.
  { rewrite (written_image_pointwise _ _ _ _ _ Hopen Hout).
    destruct src as [rows|rows]; unfold rgba_rows; cbn;
      rewrite ?map_map; apply map_ext; intros row; by rewrite ?length_map. }
  split; [|split; [done|unfold size; by rewrite Hlen]].
  intros x y. pixel_cases src out x y Hopen Hout; done.
Qed.

Lemma colours_and_size_unchanged_witness :
  (∀ x y, red_at logo_out x y = red_at logo x y
        ∧ green_at logo_out x y = green_at logo x y
        ∧ blue_at logo_out x y = blue_at logo x y)
  ∧ row_lengths logo_out = row_lengths logo
  ∧ size logo_out = size logo.
Proof.
  apply (colours_and_size_unchanged (Pillow.env files) "logo.png" "out.png");
    vm_compute; reflexivity.
Defined.

(** C5: a pixel whose red, green and blue samples are all exactly 30 is not
    in the mask, and its alpha is the one of the normalised input. *)
Theorem boundary_pixel_not_masked
    (env : Env) (i o : string) (src out : Image) (x y : nat) :
  open_file env i = Ok src → written_image env i o = Some out →
  red_at src x y = Some 30 → green_at src x y = Some 30 → blue_at src x y = Some 30 →
  (∃ mask, black_mask (np_array (convert_RGBA src)) threshold = Ok mask
           ∧ pixel_at mask x y = Some false)
  ∧ alpha_at out x y = alpha_at (convert_RGBA src) x y
  ∧ alpha_at out x y = match src with
                       | RGB _ => Some 255
                       | RGBA _ => alpha_at src x y
                       end.
Proof.
  intros Hopen Hout Hr Hg Hb. split.
  - rewrite convert_RGBA_rows, black_mask_RGBA. eexists. split; [done|].
    rewrite pixel_at_map. clear Hopen Hout.
    unfold red_at, green_at, blue_at, getpixel, rgba_rows, convert_RGBA in *.
    destruct src as [rows|rows]; rewrite ?pixel_at_map;
      [ destruct (pixel_at rows x y) as [[[r g] b]|]
      | destruct (pixel_at rows x y) as [[[[r g] b] a]|] ];
      cbn in *; by simplify_eq.
  - pixel_cases src out x y Hopen Hout; done.
Qed.

Lemma boundary_pixel_not_masked_witness :
  (∃ mask, black_mask (np_array (convert_RGBA glass)) threshold = Ok mask
           ∧ pixel_at mask 1 0 = Some false)
  ∧ alpha_at glass_out 1 0 = alpha_at (convert_RGBA glass) 1 0
  ∧ alpha_at glass_out 1 0 = alpha_at glass 1 0.
Proof.
  apply (boundary_pixel_not_masked (Pillow.env files) "glass.png" "out.png" glass);
    vm_compute; reflexivity.
Defined.

(** C6: the pixel transformation applied to its own output gives the same
    image again. *)
Theorem process_idempotent (src : Image) :
  ∃ out, process src = Ok out ∧ process out = Ok out.
Proof.
  exists (RGBA (map (map clear_black) (rgba_rows src))).
  split; [apply process_pointwise|].
  rewrite process_pointwise. do 2 f_equal. unfold rgba_rows. cbn.
  rewrite map_map. apply map_ext. intros row.
  rewrite map_map. apply map_ext. apply clear_black_idemp.
Qed.

(** C9: the output alpha of every pixel is at most the alpha of the
    normalised input: it is either 0 or that alpha. *)
Theorem alpha_never_increases
    (env : Env) (i o : string) (src out : Image) (x y : nat) (a : N) :
  open_file env i = Ok src → written_image env i o = Some out →
  alpha_at (convert_RGBA src) x y = Some a →
  ∃ a', alpha_at out x y = Some a' ∧ a' ≤ a ∧ (a' = 0 ∨ a' = a).
Proof.
  intros Hopen Hout Ha.
  pixel_cases src out x y Hopen Hout;
    (destruct (is_black _); eexists; (split; [done|]); (split; [lia|by auto])).
Qed.

Lemma alpha_never_increases_witness :
  ∃ a', alpha_at glass_out 0 1 = Some a' ∧ a' ≤ 7 ∧ (a' = 0 ∨ a' = 7).
Proof.
  apply (alpha_never_increases (Pillow.env files) "glass.png" "out.png" glass);
    vm_compute; reflexivity.
Defined.

(** C10: the output pixel at a position depends on the input pixel at that
    position alone: two inputs with the same pixel at [(x, y)] give outputs
    with the same pixel at [(x, y)], whatever they are elsewhere. *)
Theorem output_pixel_is_local
    (env1 env2 : Env) (i1 o1 i2 o2 : string) (src1 src2 out1 out2 : Image)
    (x y : nat) :
  open_file env1 i1 = Ok src1 → written_image env1 i1 o1 = Some out1 →
  open_file env2 i2 = Ok src2 → written_image env2 i2 o2 = Some out2 →
  getpixel src1 x y = getpixel src2 x y →
  getpixel out1 x y = getpixel out2 x y.
Proof.
  intros Hopen1 Hout1 Hopen2 Hout2 Heq.
  rewrite (written_image_pointwise _ _ _ _ _ Hopen1 Hout1).
  rewrite (written_image_pointwise _ _ _ _ _ Hopen2 Hout2).
  clear Hopen1 Hout1 Hopen2 Hout2.
  unfold getpixel, rgba_rows, convert_RGBA in *.
  destruct src1 as [rows1|rows1], src2 as [rows2|rows2];
    rewrite ?pixel_at_map in *;
    [ destruct (pixel_at rows1 x y) as [[[r1 g1] b1]|],
               (pixel_at rows2 x y) as [[[r2 g2] b2]|]
    | destruct (pixel_at rows1 x y) as [[[r1 g1] b1]|],
               (pixel_at rows2 x y) as [[[[r2 g2] b2] a2]|]
    | destruct (pixel_at rows1 x y) as [[[[r1 g1] b1] a1]|],
               (pixel_at rows2 x y) as [[[r2 g2] b2]|]
    | destruct (pixel_at rows1 x y) as [[[[r1 g1] b1] a1]|],
               (pixel_at rows2 x y) as [[[[r2 g2] b2] a2]|] ];
    cbn in *; by simplify_eq.
Qed.

Lemma output_pixel_is_local_witness :
  getpixel logo_out 0 0 = getpixel (RGBA [[(0, 0, 0, 0); (77, 77, 77, 255)]]) 0 0.
Proof.
  apply (output_pixel_is_local
           (Pillow.env files) (Pillow.env files)
           "logo.png" "out.png" "dark.png" "dark_out.png" logo dark);
    vm_compute; reflexivity.
Defined.

(** ** Text and lines *)

Lemma append_cons (c : ascii) (s t : string) :
  String c s +:+ t = String c (s +:+ t).
Proof. reflexivity. Qed.

Lemma has_LF_append (s t : string) : has_LF (s +:+ t) = has_LF s || has_LF t.
Proof.
  induction s as [|c s IH]; [done|].
  rewrite append_cons. cbn. rewrite IH. by destruct (Ascii.eqb c LF).
Qed.

Lemma lines_one (s : string) :
  has_LF s = false → lines (s +:+ String LF "") = [s].
Proof.
  induction s as [|c s IH]; [done|].
  cbn. intros [Hc Hs]%orb_false_iff.
  rewrite append_cons. cbn. rewrite Hc, IH by done. done.
Qed.

Lemma stdout_app (log1 log2 : list Event) :
  stdout (log1 ++ log2) = stdout log1 +:+ stdout log2.
Proof.
  induction log1 as [|[path fmt img|path|text] log1 IH]; cbn; [done..|].
  rewrite IH. induction text as [|c text IHt]; [done|].
  rewrite !append_cons. by rewrite IHt.
Qed.

(** ** Claims about the run *)

(** C4, as stated, fails: with the output path [logo.ppm] the run succeeds
    and the file is written as PPM, a container without alpha. *)
Lemma ppm_output_has_no_alpha :
  remove_black_background "logo.png" "logo.ppm" (Pillow.env files) []
  = (Ok (),
     [Saved "logo.ppm" PPM logo_out; Printed (confirmation "logo.ppm")])
  ∧ supports_alpha PPM = false.
Proof. split; [vm_compute|]; reflexivity. Qed.

(** C4, amended: the function hands [Image.save] the output path and no
    format, so the container format of the file written is the one the
    library registers for the extension of the path; for the extension
    [.png], in any letter case, it is PNG, which has a per-pixel alpha
    channel. *)
Theorem format_follows_extension
    (fs : gmap string Image) (i o : string) (log log' : list Event) :
  remove_black_background i o (Pillow.env fs) log = (Ok (), log') →
  ∃ fmt new_img,
    Pillow.EXTENSION !! Pillow.lower (Pillow.splitext_ext o) = Some fmt
    ∧ log' = log ++ [Saved o fmt new_img; Printed (confirmation o)]
    ∧ (Pillow.lower (Pillow.splitext_ext o) = ".png" →
       fmt = PNG ∧ supports_alpha fmt = true).
Proof.
  intros (src & new_img & fmt & _ & _ & Hsave & ->)%remove_black_background_success.
  exists fmt, new_img. cbn in Hsave. unfold Pillow.save in Hsave.
  destruct (Pillow.EXTENSION !! _) as [fmt'|] eqn:Hext; [|done].
  assert (fmt' = fmt) as ->.
  { destruct (Pillow.save_handler fmt' new_img); cbn in Hsave; congruence. }
  split; [done|]. split; [done|].
  intros Hpng. rewrite Hpng in Hext. vm_compute in Hext.
  injection Hext as <-. done.
Qed.

Lemma format_follows_extension_witness :
  ∃ fmt new_img,
    Pillow.EXTENSION !! ".png" = Some fmt
    ∧ [Saved "out/logo_transparent.PNG" PNG logo_out;
       Printed (confirmation "out/logo_transparent.PNG")]
      = [Saved "out/logo_transparent.PNG" fmt new_img;
         Printed (confirmation "out/logo_transparent.PNG")]
    ∧ fmt = PNG ∧ supports_alpha fmt = true.
Proof.
  assert (remove_black_background "logo.png" "out/logo_transparent.PNG"
            (Pillow.env files) []
          = (Ok (), [Saved "out/logo_transparent.PNG" PNG logo_out;
                     Printed (confirmation "out/logo_transparent.PNG")])) as Hrun
    by (vm_compute; reflexivity).
  destruct (format_follows_extension files _ _ _ _ Hrun)
    as (fmt & new_img & Hext & Hlog & Hpng).
  exists fmt, new_img. split; [exact Hext|]. split; [exact Hlog|].
  apply Hpng. vm_compute. reflexivity.
Defined.

(** C7: an exception raised by decoding or by saving is the outcome of the
    run, unchanged; when decoding fails the run has no effect at all (no file
    is saved or attempted, nothing is printed), and when saving fails nothing
    is printed.  These are the only ways for a run to raise. *)
Theorem errors_propagate (env : Env) (i o : string) (log : list Event) (e : exn) :
  (open_file env i = Raise e →
   remove_black_background i o env log = (Raise e, log))
  ∧ (∀ src new_img,
       open_file env i = Ok src → process src = Ok new_img →
       save_file env new_img o = Raise e →
       remove_black_background i o env log = (Raise e, log ++ [SaveFailed o]))
  ∧ (∀ log',
       remove_black_background i o env log = (Raise e, log') →
       open_file env i = Raise e
       ∨ ∃ src new_img, open_file env i = Ok src ∧ process src = Ok new_img
                        ∧ save_file env new_img o = Raise e).
Proof.
  split; [|split].
  - intros Hopen. by rewrite remove_black_background_run, Hopen.
  - intros src new_img Hopen Hprocess Hsave.
    by rewrite remove_black_background_run, Hopen, Hprocess, Hsave.
  - intros log'. rewrite remove_black_background_run.
    destruct (open_file env i) as [src|e'] eqn:Hopen; [|intros [= -> _]; by left].
    rewrite process_pointwise.
    destruct (save_file env _ o) as [fmt|e'] eqn:Hsave; [done|].
    intros [= -> _]. right. eexists src, _. by rewrite process_pointwise.
Qed.

Lemma errors_propagate_witness :
  remove_black_background "nothing.png" "out.png" (Pillow.env files) []
  = (Raise (DecodeFailure "No such file or directory"), [])
  ∧ remove_black_background "logo.png" "logo.jpg" (Pillow.env files) []
    = (Raise (WriteFailure "cannot write mode RGBA as JPEG"), [] ++ [SaveFailed "logo.jpg"]).
Proof.
  split.
  - apply (proj1 (errors_propagate (Pillow.env files) "nothing.png" "out.png" [] _)).
    vm_compute. reflexivity.
  - apply (proj1 (proj2 (errors_propagate (Pillow.env files) "logo.png" "logo.jpg" [] _))
             logo logo_out);
      vm_compute; reflexivity.
Defined.

(** C8, as stated, fails: with a line feed in the output path the run
    succeeds and the standard output holds two lines, neither of which
    contains the path. *)
Lemma line_feed_in_path_prints_two_lines :
  fst (remove_black_background "logo.png" two_line_path (Pillow.env files) []) = Ok ()
  ∧ lines (stdout (snd (remove_black_background "logo.png" two_line_path
                          (Pillow.env files) [])))
    = ["Processed image saved to a"; "b.png"].
Proof. split; vm_compute; reflexivity. Qed.

(** C8, amended: a run that returns has printed, after the save to the
    output path and nothing else, the text [Processed image saved to]
    followed by the output path and a line feed; when the path has no line
    feed in it this is exactly one line, and the line contains the path. *)
Theorem confirmation_after_save (env : Env) (i o : string) (log log' : list Event) :
  remove_black_background i o env log = (Ok (), log') →
  ∃ fmt new_img,
    log' = log ++ [Saved o fmt new_img; Printed (confirmation o)]
    ∧ stdout log' = stdout log +:+ confirmation o
    ∧ (has_LF o = false →
       ∃ line, lines (confirmation o) = [line] ∧ contains line o).
Proof.
  intros (src & new_img & fmt & _ & _ & _ & ->)%remove_black_background_success.
  exists fmt, new_img. split; [done|]. split.
  - rewrite stdout_app. f_equal. cbn.
    induction (confirmation o) as [|c s IH]; [done|].
    rewrite append_cons. by rewrite IH.
  - intros Ho. exists ("Processed image saved to " +:+ o). split.
    + unfold confirmation. apply lines_one. by rewrite has_LF_append, Ho.
    + exists "Processed image saved to ", "".
      f_equal. clear. induction o as [|c o IH]; [done|].
      rewrite append_cons. by rewrite <- IH.
Qed.

Lemma confirmation_after_save_witness :
  ∃ line, lines (confirmation "out.png") = [line] ∧ contains line "out.png".
Proof.
  assert (remove_black_background "logo.png" "out.png" (Pillow.env files) []
          = (Ok (), [Saved "out.png" PNG logo_out; Printed (confirmation "out.png")]))
    as Hrun by (vm_compute; reflexivity).
  destruct (confirmation_after_save (Pillow.env files) _ _ _ _ Hrun)
    as (fmt & new_img & _ & _ & Hline).
  apply Hline. reflexivity.
Defined.

(** * Further properties of the function and of the entry point *)

(** ** Helper lemmas *)

Lemma is_black_iff (r g b a : N) :
  is_black (r, g, b, a) = true ↔ r < threshold ∧ g < threshold ∧ b < threshold.
Proof.
  unfold is_black. rewrite !andb_true_iff, !N.ltb_lt. tauto.
Qed.

(** A function that fixes every entry of a grid fixes the grid. *)
Lemma map_map_id {A} (f : A → A) (rows : list (list A)) :
  (∀ x y px, pixel_at rows x y = Some px → f px = px) →
  map (map f) rows = rows.
Proof.
  intros Hfix. apply list_eq. intros y.
  change (map (map f) rows) with (map f <$> rows). rewrite list_lookup_fmap.
  destruct (rows !! y) as [row|] eqn:Hrow; [|done]. cbn. f_equal.
  apply list_eq. intros x.
  change (map f row) with (f <$> row). rewrite list_lookup_fmap.
  destruct (row !! x) as [px|] eqn:Hpx; [|done]. cbn. f_equal.
  apply (Hfix x y). unfold pixel_at. by rewrite Hrow.
Qed.

(** The three ways a run can end, with the effects of each. *)
Lemma remove_black_background_cases (env : Env) (i o : string) (log : list Event) :
  (∃ e, remove_black_background i o env log = (Raise e, log))
  ∨ (∃ e, remove_black_background i o env log = (Raise e, log ++ [SaveFailed o]))
  ∨ (∃ fmt img, remove_black_background i o env log
                = (Ok (), log ++ [Saved o fmt img; Printed (confirmation o)])).
Proof.
  rewrite remove_black_background_run.
  destruct (open_file env i) as [src|e]; [|left; by eexists].
  destruct (process src) as [img|e]; [|left; by eexists].
  destruct (save_file env img o) as [fmt|e].
  - right. right. by eexists _, _.
  - right. left. by eexists.
Qed.

(** The format the reference library writes is the one registered for the
    extension of the path. *)
Lemma Pillow_save_format (img : Image) (path : string) (fmt : Format) :
  Pillow.save img path = Ok fmt →
  Pillow.EXTENSION !! Pillow.lower (Pillow.splitext_ext path) = Some fmt.
Proof.
  unfold Pillow.save.
  destruct (Pillow.EXTENSION !! _) as [fmt'|]; [|done].
  destruct (Pillow.save_handler fmt' img); cbn; congruence.
Qed.

(** ** The written image as a whole *)

(** X1: whatever the mode of the input, the image written is in mode RGBA,
    and it has an alpha sample exactly at the positions of the input. *)
Theorem written_image_is_RGBA (env : Env) (i o : string) (src out : Image) :
  open_file env i = Ok src → written_image env i o = Some out →
  (∃ rows, out = RGBA rows)
  ∧ ∀ x y, is_Some (alpha_at out x y) ↔ is_Some (getpixel src x y).
Proof.
  intros Hopen Hout. split.
  { eexists. exact (written_image_pointwise _ _ _ _ _ Hopen Hout). }
  intros x y. pixel_cases src out x y Hopen Hout;
    split; intros [v Hv]; by eauto.
Qed.

Lemma written_image_is_RGBA_witness :
  (∃ rows, logo_out = RGBA rows)
  ∧ ∀ x y, is_Some (alpha_at logo_out x y) ↔ is_Some (getpixel logo x y).
Proof.
  apply (written_image_is_RGBA (Pillow.env files) "logo.png" "out.png");
    vm_compute; reflexivity.
Defined.

(** X2: when no pixel of the input has its red, green and blue samples all
    below 30, the image written is the input normalised to RGBA, nothing
    else changed; an RGBA input is written as it is. *)
Theorem nothing_black_nothing_changed (env : Env) (i o : string) (src out : Image) :
  open_file env i = Ok src → written_image env i o = Some out →
  (∀ x y r g b,
     red_at src x y = Some r → green_at src x y = Some g → blue_at src x y = Some b →
     ¬ (r < 30 ∧ g < 30 ∧ b < 30)) →
  out = convert_RGBA src
  ∧ match src with
    | RGB _ => True
    | RGBA _ => out = src
    end.
Proof.
  intros Hopen Hout Hnone.
  assert (out = convert_RGBA src) as ->; [|by destruct src].
  rewrite (written_image_pointwise _ _ _ _ _ Hopen Hout), convert_RGBA_rows.
  f_equal. apply map_map_id. intros x y [[[r g] b] a] Hpx.
  rewrite clear_black_eq, is_black_not_below; [done|].
  apply (Hnone x y); clear Hnone Hopen Hout;
    unfold red_at, green_at, blue_at, getpixel, rgba_rows, convert_RGBA in *;
    destruct src as [rows|rows]; rewrite ?pixel_at_map in *;
    [ destruct (pixel_at rows x y) as [[[r' g'] b']|]
    | destruct (pixel_at rows x y) as [[[[r' g'] b'] a']|]
    | destruct (pixel_at rows x y) as [[[r' g'] b']|]
    | destruct (pixel_at rows x y) as [[[[r' g'] b'] a']|]
    | destruct (pixel_at rows x y) as [[[r' g'] b']|]
    | destruct (pixel_at rows x y) as [[[[r' g'] b'] a']|] ];
    cbn in *; by simplify_eq.
Qed.

Lemma nothing_black_nothing_changed_witness :
  RGBA [[(255, 255, 255, 255); (30, 30, 30, 255)]; [(30, 0, 0, 255); (0, 200, 7, 255)]]
  = convert_RGBA bright ∧ True.
Proof.
  apply (nothing_black_nothing_changed (Pillow.env more_files) "bright.png" "out.png");
    [vm_compute; reflexivity | vm_compute; reflexivity |].
  intros x y r g b Hr Hg Hb (Lr & Lg & Lb).
  destruct y as [|[|y]]; destruct x as [|[|x]]; vm_compute in Hr, Hg, Hb;
    simplify_eq; vm_compute in Lr, Lg, Lb; discriminate.
Defined.

(** X3: a pixel of the written image is fully transparent exactly when the
    input pixel is near-black or was fully transparent already. *)
Theorem transparent_iff_black_or_transparent
    (env : Env) (i o : string) (src out : Image) (x y : nat) (r g b a : N) :
  open_file env i = Ok src → written_image env i o = Some out →
  getpixel (convert_RGBA src) x y = Some [r; g; b; a] →
  alpha_at out x y = Some 0 ↔ (r < 30 ∧ g < 30 ∧ b < 30) ∨ a = 0.
Proof.
  intros Hopen Hout Hpx.
  pixel_cases src out x y Hopen Hout;
    (destruct (is_black (r, g, b, _)) eqn:Hblack;
     [ apply is_black_iff in Hblack; split; [intros _; left; exact Hblack|done]
     | split; [intros [= ->]; by right|];
       intros [Hlt| ->]; [|done];
       match type of Hblack with
       | is_black (_, _, _, ?a') = false =>
           pose proof (proj2 (is_black_iff r g b a') Hlt); congruence
       end ]).
Qed.

Lemma transparent_iff_black_or_transparent_witness :
  alpha_at glass_out 0 1 = Some 0 ↔ (29 < 30 ∧ 29 < 30 ∧ 29 < 30) ∨ 7 = 0.
Proof.
  apply (transparent_iff_black_or_transparent
           (Pillow.env files) "glass.png" "out.png" glass);
    vm_compute; reflexivity.
Defined.

(** X4: running the function on a file that decodes to an image it has
    written writes that image again. *)
Theorem second_run_writes_same_image
    (env1 env2 : Env) (i1 o1 i2 o2 : string) (src out out' : Image) :
  open_file env1 i1 = Ok src → written_image env1 i1 o1 = Some out →
  open_file env2 i2 = Ok out → written_image env2 i2 o2 = Some out' →
  out' = out.
Proof.
  intros Hopen1 Hout1 Hopen2 Hout2.
  rewrite (written_image_pointwise _ _ _ _ _ Hopen2 Hout2).
  rewrite (written_image_pointwise _ _ _ _ _ Hopen1 Hout1).
  f_equal. unfold rgba_rows at 1. cbn.
  rewrite map_map. apply map_ext. intros row.
  rewrite map_map. apply map_ext. apply clear_black_idemp.
Qed.

Lemma second_run_writes_same_image_witness :
  written_image (Pillow.env files) "logo.png" "logo_transparent.png" = Some logo_out
  ∧ open_file (Pillow.env more_files) "logo_transparent.png" = Ok logo_out
  ∧ written_image (Pillow.env more_files) "logo_transparent.png" "again.png"
    = Some logo_out
  ∧ logo_out = logo_out.
Proof.
  do 3 (split; [vm_compute; reflexivity|]).
  apply (second_run_writes_same_image
           (Pillow.env files) (Pillow.env more_files)
           "logo.png" "logo_transparent.png" "logo_transparent.png" "again.png"
           logo logo_out logo_out);
    vm_compute; reflexivity.
Defined.

(** X5: for an input without alpha channel every pixel of the written image
    is either fully transparent or fully opaque. *)
Theorem opaque_input_gives_binary_alpha
    (env : Env) (i o : string) (rows : list (list (N * N * N))) (out : Image)
    (x y : nat) (a : N) :
  open_file env i = Ok (RGB rows) → written_image env i o = Some out →
  alpha_at out x y = Some a →
  a = 0 ∨ a = 255.
Proof.
  intros Hopen Hout Ha.
  pose proof (written_image_pointwise _ _ _ _ _ Hopen Hout) as ->.
  unfold alpha_at, getpixel, rgba_rows, convert_RGBA in Ha.
  rewrite !pixel_at_map in Ha.
  destruct (pixel_at rows x y) as [[[r g] b]|]; [|done].
  cbn in Ha. rewrite clear_black_eq in Ha. cbn in Ha.
  destruct (is_black _); simplify_eq; auto.
Qed.

Lemma opaque_input_gives_binary_alpha_witness :
  alpha_at logo_out 1 1 = Some 255 ∧ (255 = 0 ∨ 255 = 255).
Proof.
  split; [reflexivity|].
  apply (opaque_input_gives_binary_alpha
           (Pillow.env files) "logo.png" "out.png"
           [[(0, 0, 0); (10, 5, 2)]; [(40, 40, 40); (255, 255, 255)]] logo_out 1 1);
    vm_compute; reflexivity.
Defined.

(** X6: the mask of line 12 has the height and the row widths of the image,
    and it is true exactly at the pixels whose red, green and blue samples
    are all below 30. *)
Theorem mask_marks_black_pixels (src : Image) :
  ∃ mask,
    black_mask (np_array (convert_RGBA src)) threshold = Ok mask
    ∧ shape2 mask = row_lengths src
    ∧ ∀ x y r g b,
        red_at src x y = Some r → green_at src x y = Some g →
        blue_at src x y = Some b →
        pixel_at mask x y = Some true ↔ r < 30 ∧ g < 30 ∧ b < 30.
Proof.
  rewrite convert_RGBA_rows, black_mask_RGBA. eexists. split; [done|]. split.
  - unfold shape2, rgba_rows.
    destruct src as [rows|rows]; cbn; rewrite ?map_map;
      apply map_ext; intros row; by rewrite ?length_map.
  - intros x y r g b Hr Hg Hb. rewrite pixel_at_map.
    unfold red_at, green_at, blue_at, getpixel, rgba_rows, convert_RGBA in *.
    destruct src as [rows|rows]; rewrite ?pixel_at_map;
      [ destruct (pixel_at rows x y) as [[[r' g'] b']|]
      | destruct (pixel_at rows x y) as [[[[r' g'] b'] a']|] ];
      cbn in *; simplify_eq;
      (rewrite <- is_black_iff; split; [by intros [= ->]|by intros ->]).
Qed.

(** X10: the written pixel in closed form.  At a position of the input
    whose samples after normalisation are [r], [g], [b] and [a], the written
    pixel is [r], [g], [b] and 0 when the three colours are all below 30, and
    [r], [g], [b] and [a] otherwise; outside the input there is no pixel. *)
Theorem written_pixel (env : Env) (i o : string) (src out : Image) (x y : nat) :
  open_file env i = Ok src → written_image env i o = Some out →
  getpixel out x y
  = match getpixel (convert_RGBA src) x y with
    | Some [r; g; b; a] =>
        Some [r; g; b; if (r <? 30) && (g <? 30) && (b <? 30) then 0 else a]
    | _ => None
    end.
Proof.
  intros Hopen Hout. pixel_cases src out x y Hopen Hout; done.
Qed.

Lemma written_pixel_witness :
  getpixel glass_out 0 1 = Some [29; 29; 29; 0]
  ∧ getpixel glass_out 1 1 = Some [30; 0; 0; 9]
  ∧ getpixel glass_out 2 1 = None.
Proof.
  split; [|split].
  - apply (written_pixel (Pillow.env files) "glass.png" "out.png" glass glass_out 0 1);
      vm_compute; reflexivity.
  - apply (written_pixel (Pillow.env files) "glass.png" "out.png" glass glass_out 1 1);
      vm_compute; reflexivity.
  - apply (written_pixel (Pillow.env files) "glass.png" "out.png" glass glass_out 2 1);
      vm_compute; reflexivity.
Defined.

(** ** The effects of a run and the entry point *)

(** Membership of an event in an explicit list of events, by cases. *)
Ltac event_cases :=
  repeat match goal with
         | |- _ ∉ _ => intros ?
         | H : _ ∈ [] |- _ => by apply elem_of_nil in H
         | H : _ ∈ _ :: _ |- _ => apply elem_of_cons in H as [H|H]
         end;
  by simplify_eq.

(** X7: however a run ends, it keeps the log it started from and adds at
    most two effects to it; every save, successful or failed, is at the
    output path, and the only text printed is the confirmation, on a run that
    returns. *)
Theorem effects_only_at_output_path
    (env : Env) (i o : string) (log log' : list Event) (r : result unit) :
  remove_black_background i o env log = (r, log') →
  ∃ evs, log' = log ++ evs ∧ (length evs ≤ 2)%nat
    ∧ (∀ path fmt img, Saved path fmt img ∈ evs → path = o)
    ∧ (∀ path, SaveFailed path ∈ evs → path = o)
    ∧ (∀ text, Printed text ∈ evs → r = Ok () ∧ text = confirmation o).
Proof.
  intros Hrun.
  destruct (remove_black_background_cases env i o log)
    as [[e He]|[[e He]|(fmt & img & He)]];
    rewrite He in Hrun; injection Hrun as <- <-.
  - exists []. rewrite app_nil_r. split; [done|]. split; [cbn; lia|].
    repeat split; intros; event_cases.
  - eexists. split; [done|]. split; [cbn; lia|].
    repeat split; intros; event_cases.
  - eexists. split; [done|]. split; [cbn; lia|].
    repeat split; intros; event_cases.
Qed.

Lemma effects_only_at_output_path_witness :
  ∃ evs, [SaveFailed "logo.jpg"] = [] ++ evs ∧ (length evs ≤ 2)%nat
    ∧ (∀ path fmt img, Saved path fmt img ∈ evs → path = "logo.jpg")
    ∧ (∀ path, SaveFailed path ∈ evs → path = "logo.jpg")
    ∧ (∀ text, Printed text ∈ evs →
         Raise (WriteFailure "cannot write mode RGBA as JPEG") = Ok ()
         ∧ text = confirmation "logo.jpg").
Proof.
  apply (effects_only_at_output_path (Pillow.env files) "logo.png" "logo.jpg" []).
  vm_compute. reflexivity.
Defined.

Lemma logo_paths_differ : logo_transparent_path ≠ logo_path.
Proof. apply (proj1 (bool_decide_eq_false _)). vm_compute. reflexivity. Qed.

(** X8: loaded under any name but [__main__] the module does nothing.  Run
    as a program, in every environment, it never saves at the path it reads,
    so the source logo is not overwritten, and when it returns it has printed
    exactly one line, the confirmation for the literal output path. *)
Theorem direct_invocation (env : Env) (log : list Event) :
  (∀ name, name ≠ "__main__" → module_body name env log = (Ok (), log))
  ∧ (∀ r log',
       module_body "__main__" env log = (r, log') →
       ∃ evs, log' = log ++ evs
         ∧ (∀ fmt img, Saved logo_path fmt img ∉ evs)
         ∧ (SaveFailed logo_path ∉ evs)
         ∧ (r = Ok () →
            lines (stdout evs)
            = ["Processed image saved to " +:+ logo_transparent_path])).
Proof.
  split.
  - intros name Hname. unfold module_body. by rewrite decide_False.
  - intros r log'. unfold module_body. rewrite decide_True by done.
    pose proof logo_paths_differ as Hne. intros Hrun.
    destruct (remove_black_background_cases env logo_path logo_transparent_path log)
      as [[e He]|[[e He]|(fmt & img & He)]];
      rewrite He in Hrun; injection Hrun as <- <-.
    + exists []. rewrite app_nil_r. split; [done|].
      split; [intros; event_cases|]. split; [event_cases|done].
    + eexists. split; [done|].
      split; [intros; event_cases|]. split; [event_cases|done].
    + eexists. split; [done|].
      split; [intros; event_cases|]. split; [event_cases|].
      intros _. vm_compute. reflexivity.
Qed.

Lemma direct_invocation_witness :
  module_body "remove_bg" (Pillow.env more_files) [] = (Ok (), [])
  ∧ ∃ evs, [Saved logo_transparent_path PNG logo_out;
            Printed (confirmation logo_transparent_path)] = [] ++ evs
      ∧ (∀ fmt img, Saved logo_path fmt img ∉ evs)
      ∧ (SaveFailed logo_path ∉ evs)
      ∧ (Ok () = Ok () →
         lines (stdout evs)
         = ["Processed image saved to " +:+ logo_transparent_path]).
Proof.
  split.
  - apply (proj1 (direct_invocation (Pillow.env more_files) [])). done.
  - apply (proj2 (direct_invocation (Pillow.env more_files) [])).
    vm_compute. reflexivity.
Defined.

(** X9: with the reference imaging library, a direct invocation that
    returns has written the file at the literal output path as PNG, a
    container with a per-pixel alpha channel. *)
Theorem direct_invocation_writes_png
    (fs : gmap string Image) (log log' : list Event) :
  module_body "__main__" (Pillow.env fs) log = (Ok (), log') →
  ∃ img, log' = log ++ [Saved logo_transparent_path PNG img;
                        Printed (confirmation logo_transparent_path)]
         ∧ supports_alpha PNG = true.
Proof.
  unfold module_body. rewrite decide_True by done.
  intros (src & img & fmt & _ & _ & Hsave & ->)%remove_black_background_success.
  apply Pillow_save_format in Hsave. vm_compute in Hsave.
  injection Hsave as <-. by exists img.
Qed.

Lemma direct_invocation_writes_png_witness :
  ∃ img, [Saved logo_transparent_path PNG logo_out;
          Printed (confirmation logo_transparent_path)]
         = [] ++ [Saved logo_transparent_path PNG img;
                  Printed (confirmation logo_transparent_path)]
         ∧ supports_alpha PNG = true.
Proof.
  apply (direct_invocation_writes_png more_files []).
  vm_compute. reflexivity.
Defined.
